(** * The Game record model of the dixit-online client

    Shallow embedding of [client/src/app/game/game.models.ts]: the
    [GameStatus] string enum, the [Game] class, its constructor and its one
    method [isPlayable].

    The constructor receives an untyped payload decoded from the server's
    JSON answer.  Payloads are therefore modelled as the values [JSON.parse]
    can produce, together with [undefined] (the value of an absent property
    and of an omitted argument). *)

From Stdlib Require Import ZArith Ascii String List.
From Stdlib Require Import Floats.SpecFloat.
From stdpp Require Import base option list strings pretty gmap.

Local Open Scope string_scope.
Local Open Scope Z_scope.

#[local] Set Warnings "-register-all".

(** ** JavaScript values *)

(** A Number is an IEEE 754 double: [spec_float] is the Standard Library's
    specification type of such values ([S754_finite s m e] denotes
    [(-1)^s * m * 2^e]). *)
Definition number := spec_float.

(** Arrays and objects are trees here: a decoded JSON document has no
    sharing, no cycle, no accessor property and no symbol-keyed property, and
    every object in it inherits from [Object.prototype] (every array from
    [Array.prototype]).  An object's own properties are a finite map from
    property names to values. *)
Inductive value : Type :=
| VUndefined
| VNull
| VBool (b : bool)
| VNumber (n : number)
| VString (s : string)
| VArray (elements : list value)
| VObject (props : gmap string value).

(** The primitive values, the results of [ToPrimitive]. *)
Inductive primitive : Type :=
| PUndefined
| PNull
| PBool (b : bool)
| PNumber (n : number)
| PString (s : string).

(** ** Abrupt completion *)

Inductive exn : Type :=
| TypeError
| RangeError.

Inductive result (A : Type) : Type :=
| Ok (a : A)
| Throw (e : exn).
Arguments Ok {A} a.
Arguments Throw {A} e.

#[export] Instance result_ret : MRet result := fun A a => Ok a.
#[export] Instance result_bind : MBind result := fun A B f r =>
  match r with
  | Ok a => f a
  | Throw e => Throw e
  end.

(** [traverse f l] runs [f] on the elements of [l] from left to right and
    stops at the first one that throws. *)
Definition traverse {A B : Type} (f : A -> result B) : list A -> result (list B) :=
  fix go (l : list A) : result (list B) :=
    match l with
    | [] => Ok []
    | x :: rest => y ← f x; ys ← go rest; Ok (y :: ys)
    end.

(** ** Built-ins of the host

    The source calls [new Date(...)], whose behaviour on a String is that of
    [Date.parse], and, for an array, goes through [Number::toString].  Both
    belong to the JavaScript engine and not to the repository; they are
    parameters of the development.  A time value is an integral number of
    milliseconds since the epoch of magnitude at most [time_limit], or NaN,
    written [None].

    An array is converted by [join], which calls itself on the arrays it
    contains.  The engine's call stack bounds how deep these calls nest:
    past the bound the conversion throws a RangeError.  The bound,
    [max_join_depth], is the engine's too. *)

Definition time_limit : Z := 8640000000000000.

Class Host : Type := {
  Date_parse : string -> option Z;
  Date_parse_range :
    forall s t, Date_parse s = Some t -> - time_limit <= t <= time_limit;
  Number_toString : number -> string;
  max_join_depth : nat
}.

(** ** Date objects *)

(** The [[DateValue]] slot of a Date object; [None] is NaN. *)
Record Date : Type := { DateValue : option Z }.

(** [new Date(NaN)], what [String(d)] shows as "Invalid Date". *)
Definition Invalid_Date : Date := {| DateValue := None |}.

Definition positive_zero : number := S754_zero false.
Definition number_one : number := S754_finite false 1 0.

(** The Number that holds a time value. *)
Definition time_value_number (tv : option Z) : number :=
  match tv with
  | None => S754_nan
  | Some 0 => positive_zero
  | Some (Z.pos p) => S754_finite false p 0
  | Some (Z.neg p) => S754_finite true p 0
  end.

(** [m * 2^e > L], on the reals. *)
Definition magnitude_exceeds (m : positive) (e : Z) (L : Z) : bool :=
  if decide (0 <= e) then bool_decide (L < Z.pos m * 2 ^ e)
  else bool_decide (L * 2 ^ (- e) < Z.pos m).

(** The integral part of [m * 2^e]. *)
Definition truncate (m : positive) (e : Z) : Z :=
  if decide (0 <= e) then Z.pos m * 2 ^ e else Z.pos m / 2 ^ (- e).

(** [TimeClip(time)]: NaN when [time] is not finite or exceeds 8.64e15 in
    magnitude, else [ToIntegerOrInfinity(time)] (and -0 becomes +0). *)
Definition TimeClip (time : number) : option Z :=
  match time with
  | S754_nan | S754_infinity _ => None
  | S754_zero _ => Some 0
  | S754_finite s m e =>
      if magnitude_exceeds m e time_limit then None
      else Some (if s then - truncate m e else truncate m e)
  end.

(** ** Type conversion *)

Section Conversions.
Context {host : Host}.

(** [OrdinaryToPrimitive] on a decoded object tries the methods [valueOf]
    and [toString] and keeps the first primitive result.  [call_method]
    is one such attempt, [Some s] when it yields the primitive [s]:
    - an own property of that name shadows the inherited method; it holds
      data, is not callable, and the attempt is skipped;
    - the inherited [Object.prototype.valueOf] returns the object itself,
      which is not a primitive;
    - the inherited [Object.prototype.toString] returns "[object Object]". *)
Definition call_method (props : gmap string value) (name : string) : option string :=
  match props !! name with
  | Some _ => None
  | None => if decide (name = "toString") then Some "[object Object]" else None
  end.

(** The two orders in which the methods are tried. *)
Inductive hint : Type :=
| hint_number
| hint_string.

Definition method_names (h : hint) : list string :=
  match h with
  | hint_number => ["valueOf"; "toString"]
  | hint_string => ["toString"; "valueOf"]
  end.

(** Throws a TypeError when no attempt yields a primitive. *)
Definition OrdinaryToPrimitive (props : gmap string value) (h : hint) : result string :=
  match omap (call_method props) (method_names h) with
  | s :: _ => Ok s
  | [] => Throw TypeError
  end.

(** [Array.prototype.join] with the separator ",". *)
Definition join_strings (parts : list string) : string :=
  String.concat "," parts.

(** [ToString(v)], when [depth] more calls of [join] can nest.  An array
    is converted by [Array.prototype.toString], that is by [join]: its
    elements are converted from left to right, [undefined] and [null]
    giving the empty string.  When no call of [join] is left, the stack is
    exhausted and the conversion throws a RangeError. *)
Fixpoint ToString (depth : nat) (v : value) {struct v} : result string :=
  match v with
  | VUndefined => Ok "undefined"
  | VNull => Ok "null"
  | VBool b => Ok (if b then "true" else "false")
  | VNumber n => Ok (Number_toString n)
  | VString s => Ok s
  | VArray elements =>
      match depth with
      | O => Throw RangeError
      | S depth' =>
          parts ← traverse (fun x => match x with
                                     | VUndefined | VNull => Ok ""
                                     | _ => ToString depth' x
                                     end) elements;
          Ok (join_strings parts)
      end
  | VObject props => OrdinaryToPrimitive props hint_string
  end.

(** [ToPrimitive(v)] without a preferred type, as [new Date] calls it.  A
    decoded object or array has no [Symbol.toPrimitive] method, so the
    conversion is [OrdinaryToPrimitive] with the hint number: [valueOf]
    returns the object or array itself, and [toString] decides. *)
Definition ToPrimitive (v : value) : result primitive :=
  match v with
  | VUndefined => Ok PUndefined
  | VNull => Ok PNull
  | VBool b => Ok (PBool b)
  | VNumber n => Ok (PNumber n)
  | VString s => Ok (PString s)
  | VArray _ => s ← ToString max_join_depth v; Ok (PString s)
  | VObject props => s ← OrdinaryToPrimitive props hint_number; Ok (PString s)
  end.

(** [new Date(value)] with one argument that is not a Date: a String is
    parsed, anything else is converted by [ToNumber]; the result is
    clipped. *)
Definition new_Date (v : value) : result Date :=
  prim ← ToPrimitive v;
  let tv :=
    match prim with
    | PString s => time_value_number (Date_parse s)
    | PUndefined => S754_nan
    | PNull => positive_zero
    | PBool b => if b then number_one else positive_zero
    | PNumber n => n
    end in
  Ok {| DateValue := TimeClip tv |}.

End Conversions.

(** ** The model: [game.models.ts] *)

(** [export enum GameStatus]: a string enum; each member evaluates to its
    string. *)
Inductive GameStatus : Type :=
| NEW
| ONGOING
| FINISHED
| ABANDONED.

Definition GameStatus_value (s : GameStatus) : string :=
  match s with
  | NEW => "new"
  | ONGOING => "ongoing"
  | FINISHED => "finished"
  | ABANDONED => "abandoned"
  end.

(** [export class Game].  The declared field types ([Number], [String],
    [Object], ...) are erased by the compiler and [info] is untyped, so six
    fields hold whatever value the payload has; the two others hold the Date
    objects the constructor creates. *)
Record Game : Type := {
  id : value;
  name : value;
  status : value;
  nPlayers : value;
  createdOn : Date;
  lastActive : Date;
  rounds : value;
  scoreboard : value
}.

(** The own property [p] of the payload, for a name [p] that is neither an
    index nor "length" (the own properties of arrays and strings). *)
Definition own_property (info : value) (p : string) : option value :=
  match info with
  | VObject props => props !! p
  | _ => None
  end.

(** The property read [info.p], for a name [p] that none of
    [Object.prototype], [Array.prototype], [String.prototype],
    [Number.prototype] and [Boolean.prototype] defines: such are the eight
    names the constructor reads.  On [undefined] and [null] the read throws;
    otherwise it is the own property, [undefined] when there is none. *)
Definition Get (info : value) (p : string) : result value :=
  match info with
  | VUndefined | VNull => Throw TypeError
  | _ => Ok (default VUndefined (own_property info p))
  end.

(** [x === s] for a String [s]: [x] is a String with the same characters. *)
Definition strict_equals_string (x : value) (s : string) : bool :=
  match x with
  | VString t => bool_decide (t = s)
  | _ => false
  end.

(** A method of the class runs on [this] and returns its result with the
    [this] it leaves, or throws. *)
Definition method (A : Type) : Type := Game -> result (A * Game).

Section Model.
Context {host : Host}.

(** [constructor(info)]: the eight assignments in the order of the source,
    the first abrupt completion ending the construction. *)
Definition Game_constructor (info : value) : result Game :=
  v_id ← Get info "id";
  v_name ← Get info "name";
  v_status ← Get info "status";
  v_nPlayers ← Get info "n_players";
  v_createdOn ← Get info "created_on" ≫= new_Date;
  v_lastActive ← Get info "last_active" ≫= new_Date;
  v_rounds ← Get info "rounds";
  v_scoreboard ← Get info "scoreboard";
  Ok {| id := v_id; name := v_name; status := v_status;
        nPlayers := v_nPlayers; createdOn := v_createdOn;
        lastActive := v_lastActive; rounds := v_rounds;
        scoreboard := v_scoreboard |}.

End Model.

(** [isPlayable()]: [return this.status === GameStatus.NEW]. *)
Definition isPlayable : method bool :=
  fun this => Ok (strict_equals_string (status this) (GameStatus_value NEW), this).

(** ** Vocabulary of the statements *)


(** [info == null]: the payloads no property can be read from. *)
Definition nullish (info : value) : bool :=
  match info with
  | VUndefined | VNull => true
  | _ => false
  end.

(** What [info.p] evaluates to when it does not throw. *)
Definition field (info : value) (p : string) : value :=
  default VUndefined (own_property info p).

Definition is_array (v : value) : bool :=
  match v with
  | VArray _ => true
  | _ => false
  end.

(** An object whose own property "toString" shadows the inherited
    method. *)
Definition shadows_toString (v : value) : bool :=
  match v with
  | VObject props =>
      match props !! "toString" with
      | None => false
      | Some _ => true
      end
  | _ => false
  end.

(** The values [ToPrimitive] converts without a call of [join] and without
    meeting a shadowed [toString]: every value but the arrays and the
    objects that have an own property "toString". *)
Definition converts_directly (v : value) : bool :=
  negb (is_array v) && negb (shadows_toString v).

(** [v] wrapped in [n] arrays of one element: [[[...v...]]]. *)
Fixpoint nest (n : nat) (v : value) : value :=
  match n with
  | O => v
  | S n' => VArray [nest n' v]
  end.


(** The value is the string of a member of [GameStatus]. *)
Definition is_GameStatus (v : value) : Prop :=
  exists s : GameStatus, v = VString (GameStatus_value s).

(** The Game built from a payload whose date fields convert to [d1], [d2]. *)
Definition Game_of (info : value) (d1 d2 : Date) : Game :=
  {| id := field info "id"; name := field info "name";
     status := field info "status"; nPlayers := field info "n_players";
     createdOn := d1; lastActive := d2;
     rounds := field info "rounds"; scoreboard := field info "scoreboard" |}.

(** ** A host to run the model on

    [utc_host] instantiates the built-ins for the examples below.  Its
    [Date.parse] recognises the UTC form [YYYY-MM-DDTHH:mm:ssZ] of the
    ECMAScript date-time string format and answers NaN on every other
    string.  Its [Number::toString] is exact on the integers a double holds
    exactly (magnitude below 2^53), the only numbers the examples convert
    to a String; other finite values are shown by their integral part.  Its
    calls of [join] nest a thousand deep. *)

Module UTC.

Definition digit (c : ascii) : option Z :=
  let n := Z.of_N (N_of_ascii c) in
  if decide (48 <= n <= 57) then Some (n - 48) else None.

(** Reads exactly [k] decimal digits. *)
Fixpoint take_number (k : nat) (acc : Z) (s : string) : option (Z * string) :=
  match k with
  | O => Some (acc, s)
  | S k' =>
      match s with
      | String c s' => d ← digit c; take_number k' (10 * acc + d) s'
      | EmptyString => None
      end
  end.

Definition expect (c : ascii) (s : string) : option string :=
  match s with
  | String c' s' => if decide (c = c') then Some s' else None
  | EmptyString => None
  end.

Definition is_leap (y : Z) : bool :=
  bool_decide (y mod 4 = 0 /\ (y mod 100 <> 0 \/ y mod 400 = 0)).

Definition DaysInMonth (y m : Z) : Z :=
  if decide (m = 2) then (if is_leap y then 29 else 28)
  else if decide (m = 4 \/ m = 6 \/ m = 9 \/ m = 11) then 30
  else 31.

(** [DayFromYear(y)]: the day number of the first day of year [y]. *)
Definition DayFromYear (y : Z) : Z :=
  365 * (y - 1970) + (y - 1969) / 4 - (y - 1901) / 100 + (y - 1601) / 400.

(** The days of year [y] before its month [m]. *)
Definition days_before_month (y m : Z) : Z :=
  foldr Z.add 0 (DaysInMonth y <$> seqZ 1 (m - 1)).

Definition msPerDay : Z := 86400000.

Definition MakeTime (h mi sec : Z) : Z := h * 3600000 + mi * 60000 + sec * 1000.

Definition MakeDate (y m d : Z) : Z :=
  (DayFromYear y + days_before_month y m + (d - 1)) * msPerDay.

(** The time value the string denotes, before the range check. *)
Definition raw (s : string) : option Z :=
  '(y, s) ← take_number 4 0 s;
  s ← expect "-" s;
  '(m, s) ← take_number 2 0 s;
  s ← expect "-" s;
  '(d, s) ← take_number 2 0 s;
  s ← expect "T" s;
  '(h, s) ← take_number 2 0 s;
  s ← expect ":" s;
  '(mi, s) ← take_number 2 0 s;
  s ← expect ":" s;
  '(sec, s) ← take_number 2 0 s;
  s ← expect "Z" s;
  if decide (s = "" /\ 1 <= m <= 12 /\ 1 <= d <= DaysInMonth y m /\
             h <= 23 /\ mi <= 59 /\ sec <= 59)
  then Some (MakeDate y m d + MakeTime h mi sec) else None.

(** NaN outside the range of time values. *)
Definition clip (t : Z) : option Z :=
  if decide (- time_limit <= t <= time_limit) then Some t else None.

Definition parse (s : string) : option Z := raw s ≫= clip.

Definition Number_toString (x : number) : string :=
  match x with
  | S754_nan => "NaN"
  | S754_infinity s => if s then "-Infinity" else "Infinity"
  | S754_zero _ => "0"
  | S754_finite s m e => pretty (if s then - truncate m e else truncate m e)
  end.

End UTC.

#[export] Instance utc_host : Host.
Proof.
  refine {| Date_parse := UTC.parse; Number_toString := UTC.Number_toString;
            max_join_depth := 1000 |}.
  intros s t E. apply bind_Some in E as (t' & _ & E).
  unfold UTC.clip in E. case_decide; congruence.
Defined.

(** ** Example payloads *)

(** The Number of an integer a double holds exactly. *)
Definition integer (z : Z) : number := time_value_number (Some z).

(** Scenario 1 of the specification. *)
Definition quiz_night : value :=
  VObject (list_to_map
    [("id", VNumber (integer 1)); ("name", VString "Quiz Night");
     ("status", VString "new"); ("n_players", VNumber (integer 4));
     ("created_on", VString "2024-01-01T00:00:00Z");
     ("last_active", VString "2024-01-01T00:00:00Z");
     ("rounds", VArray []); ("scoreboard", VArray [])]).

Definition quiz_night_game : Game :=
  {| id := VNumber (integer 1); name := VString "Quiz Night";
     status := VString "new"; nPlayers := VNumber (integer 4);
     createdOn := {| DateValue := Some 1704067200000 |};
     lastActive := {| DateValue := Some 1704067200000 |};
     rounds := VArray []; scoreboard := VArray [] |}.

(** Scenario 3: a finished game whose [created_on] does not parse. *)
Definition trivia_rounds : value :=
  VArray [VObject {[ "r" := VNumber (integer 1) ]}].

Definition trivia_scoreboard : value :=
  VArray [VObject (list_to_map [("p", VNumber (integer 1));
                                ("s", VNumber (integer 10))])].

Definition trivia : value :=
  VObject (list_to_map
    [("id", VNumber (integer 2)); ("name", VString "Trivia");
     ("status", VString "finished"); ("n_players", VNumber (integer 2));
     ("created_on", VString "bad-date");
     ("last_active", VString "2024-02-01T00:00:00Z");
     ("rounds", trivia_rounds); ("scoreboard", trivia_scoreboard)]).

Definition trivia_game : Game :=
  {| id := VNumber (integer 2); name := VString "Trivia";
     status := VString "finished"; nPlayers := VNumber (integer 2);
     createdOn := Invalid_Date;
     lastActive := {| DateValue := Some 1706745600000 |};
     rounds := trivia_rounds; scoreboard := trivia_scoreboard |}.

(** Scenario 4: scenario 1 without [n_players]. *)
Definition no_players : value :=
  VObject (list_to_map
    [("id", VNumber (integer 1)); ("name", VString "Quiz Night");
     ("status", VString "new");
     ("created_on", VString "2024-01-01T00:00:00Z");
     ("last_active", VString "2024-01-01T00:00:00Z");
     ("rounds", VArray []); ("scoreboard", VArray [])]).

Definition no_players_game : Game :=
  {| id := VNumber (integer 1); name := VString "Quiz Night";
     status := VString "new"; nPlayers := VUndefined;
     createdOn := {| DateValue := Some 1704067200000 |};
     lastActive := {| DateValue := Some 1704067200000 |};
     rounds := VArray []; scoreboard := VArray [] |}.

(** The Game of the empty object. *)
Definition blank_game : Game :=
  {| id := VUndefined; name := VUndefined; status := VUndefined;
     nPlayers := VUndefined; createdOn := Invalid_Date;
     lastActive := Invalid_Date; rounds := VUndefined;
     scoreboard := VUndefined |}.

(** A status the enumeration does not have. *)
Definition paused : value := VObject {[ "status" := VString "paused" ]}.

Definition paused_game : Game :=
  {| id := VUndefined; name := VUndefined; status := VString "paused";
     nPlayers := VUndefined; createdOn := Invalid_Date;
     lastActive := Invalid_Date; rounds := VUndefined;
     scoreboard := VUndefined |}.

(** Decoded payloads in which a date field holds, or holds an array with,
    an object that has a property named "toString". *)
Definition shadowed_created_on : value :=
  VObject {[ "created_on" := VObject {[ "toString" := VNumber (integer 1) ]} ]}.



(** A Game whose status differs from 'new' by case only. *)
Definition shouting_game : Game :=
  {| id := VUndefined; name := VUndefined; status := VString "NEW";
     nPlayers := VUndefined; createdOn := Invalid_Date;
     lastActive := Invalid_Date; rounds := VUndefined;
     scoreboard := VUndefined |}.

(** ** Further vocabulary and payloads *)

(** The property names the constructor reads, in the order it reads them. *)
Definition payload_fields : list string :=
  ["id"; "name"; "status"; "n_players"; "created_on"; "last_active";
   "rounds"; "scoreboard"].

Definition is_payload_field (p : string) : bool :=
  bool_decide (p ∈ payload_fields).

(** The payload has none of the eight properties. *)
Definition has_no_payload_field (info : value) : bool :=
  forallb (fun p => match own_property info p with
                    | None => true
                    | Some _ => false
                    end) payload_fields.

(** An object that has other properties only. *)
Definition stranger : value := VObject {[ "extra" := VBool true ]}.

(** A payload that is playable and has a property the class knows nothing
    of. *)
Definition new_props : gmap string value := {[ "status" := VString "new" ]}.

(** Date fields that are not strings: [null] and a number of
    milliseconds. *)
Definition null_and_number_dates : value :=
  VObject (list_to_map [("created_on", VNull);
                        ("last_active", VNumber (integer 1704067200000))]).

Definition null_and_number_game : Game :=
  {| id := VUndefined; name := VUndefined; status := VUndefined;
     nPlayers := VUndefined; createdOn := {| DateValue := Some 0 |};
     lastActive := {| DateValue := Some 1704067200000 |};
     rounds := VUndefined; scoreboard := VUndefined |}.

(** Date fields that are an empty object and an array of one string. *)
Definition object_and_array_dates : value :=
  VObject (list_to_map [("created_on", VObject ∅);
                        ("last_active", VArray [VString "2024-02-01T00:00:00Z"])]).

Definition object_and_array_game : Game :=
  {| id := VUndefined; name := VUndefined; status := VUndefined;
     nPlayers := VUndefined; createdOn := Invalid_Date;
     lastActive := {| DateValue := Some 1706745600000 |};
     rounds := VUndefined; scoreboard := VUndefined |}.

(** ** Conversions: when they throw *)

Section ConversionFacts.
Context {host : Host}.

Lemma OrdinaryToPrimitive_spec props h :
  OrdinaryToPrimitive props h =
    match props !! "toString" with
    | None => Ok "[object Object]"
    | Some _ => Throw TypeError
    end.
Proof.
  unfold OrdinaryToPrimitive, call_method.
  destruct h; simpl;
    destruct (props !! "toString"), (props !! "valueOf"); reflexivity.
Qed.

(** [new Date(v)] completes on the values that convert directly. *)
Lemma new_Date_converts_directly v :
  converts_directly v = true -> exists d, new_Date v = Ok d.
Proof.
  unfold converts_directly, new_Date.
  destruct v as [ | | b | n | s | elements | props]; simpl;
    try discriminate; eauto.
  rewrite OrdinaryToPrimitive_spec.
  destruct (props !! "toString"); [discriminate|]. simpl. eauto.
Qed.

(** A shadowed [toString] is a TypeError. *)
Lemma new_Date_shadows_toString v :
  shadows_toString v = true -> new_Date v = Throw TypeError.
Proof.
  unfold new_Date. destruct v as [ | | b | n | s | elements | props]; simpl;
    try discriminate.
  rewrite OrdinaryToPrimitive_spec.
  destruct (props !! "toString"); [reflexivity|discriminate].
Qed.

Lemma traverse_cons {A B} (f : A -> result B) (x : A) (l : list A) :
  traverse f (x :: l) = (y ← f x; ys ← traverse f l; Ok (y :: ys)).
Proof. reflexivity. Qed.

Lemma ToString_array depth elements :
  ToString (S depth) (VArray elements) =
    (parts ← traverse (fun x => match x with
                                | VUndefined | VNull => Ok ""
                                | _ => ToString depth x
                                end) elements;
     Ok (join_strings parts)).
Proof. reflexivity. Qed.

(** One array more than the stack holds is a RangeError, whatever is
    inside. *)
Lemma ToString_too_deep depth v :
  ToString depth (nest (S depth) v) = Throw RangeError.
Proof.
  revert v. induction depth as [|depth IH]; intros v; [reflexivity|].
  change (nest (S (S depth)) v) with (VArray [nest (S depth) v]).
  rewrite ToString_array, traverse_cons.
  change (nest (S depth) v) with (VArray [nest depth v]) at 1.
  change (VArray [nest depth v]) with (nest (S depth) v).
  rewrite IH. reflexivity.
Qed.

Lemma new_Date_too_deep v :
  new_Date (nest (S max_join_depth) v) = Throw RangeError.
Proof.
  unfold new_Date.
  change (ToPrimitive (nest (S max_join_depth) v))
    with (s ← ToString max_join_depth (nest (S max_join_depth) v); Ok (PString s)).
  rewrite ToString_too_deep. reflexivity.
Qed.

(** Clipping leaves a time value as it is. *)
Lemma TimeClip_time_value (t : Z) :
  - time_limit <= t <= time_limit ->
  TimeClip (time_value_number (Some t)) = Some t.
Proof.
  unfold time_limit. intros Ht.
  destruct t as [|p|p]; simpl; [reflexivity| |];
    unfold magnitude_exceeds, truncate, time_limit; simpl;
    rewrite bool_decide_eq_false_2 by lia; f_equal; lia.
Qed.


(** On a String, [new Date] holds what [Date.parse] answers. *)
Lemma new_Date_string s :
  new_Date (VString s) = Ok {| DateValue := Date_parse s |}.
Proof.
  unfold new_Date. simpl. do 2 f_equal.
  destruct (Date_parse s) as [t|] eqn:E; [|reflexivity].
  apply TimeClip_time_value. eapply Date_parse_range, E.
Qed.


End ConversionFacts.

(** ** The constructor: when it completes, and with what *)

Section ConstructorFacts.
Context {host : Host}.

Lemma Get_Ok info p v :
  Get info p = Ok v <-> nullish info = false /\ v = field info p.
Proof.
  unfold Get, field. destruct info; simpl; split;
    try (intros [? ?]; congruence); try discriminate;
    intros [= <-]; auto.
Qed.

Lemma Get_not_nullish info p :
  nullish info = false -> Get info p = Ok (field info p).
Proof. intros E. apply Get_Ok. auto. Qed.

Lemma Get_nullish info p : nullish info = true -> Get info p = Throw TypeError.
Proof. destruct info; simpl; congruence. Qed.


Lemma Game_constructor_Ok info d1 d2 :
  nullish info = false ->
  new_Date (field info "created_on") = Ok d1 ->
  new_Date (field info "last_active") = Ok d2 ->
  Game_constructor info = Ok (Game_of info d1 d2).
Proof.
  intros Hn E1 E2. unfold Game_constructor.
  rewrite !Get_not_nullish by assumption. simpl. rewrite E1, E2. reflexivity.
Qed.

Lemma Game_constructor_inv info g :
  Game_constructor info = Ok g ->
  nullish info = false /\
  new_Date (field info "created_on") = Ok (createdOn g) /\
  new_Date (field info "last_active") = Ok (lastActive g) /\
  g = Game_of info (createdOn g) (lastActive g).
Proof.
  unfold Game_constructor. intros E.
  destruct (nullish info) eqn:Hn.
  { rewrite (Get_nullish info "id") in E by assumption. discriminate. }
  rewrite !Get_not_nullish in E by assumption. simpl in E.
  destruct (new_Date (field info "created_on")) as [d1|]; [|discriminate].
  destruct (new_Date (field info "last_active")) as [d2|]; [|discriminate].
  simpl in E. injection E as <-. auto.
Qed.

(** [new Game(info)] completes when [info] is neither [undefined] nor
    [null] and both date fields convert directly. *)
Lemma Game_constructor_completes info :
  nullish info = false ->
  converts_directly (field info "created_on") = true ->
  converts_directly (field info "last_active") = true ->
  exists d1 d2, Game_constructor info = Ok (Game_of info d1 d2).
Proof.
  intros Hn [d1 E1]%new_Date_converts_directly [d2 E2]%new_Date_converts_directly.
  exists d1, d2. by apply Game_constructor_Ok.
Qed.

(** What the conversion of [created_on] throws, the constructor throws. *)
Lemma Game_constructor_created_on_throws info e :
  nullish info = false ->
  new_Date (field info "created_on") = Throw e ->
  Game_constructor info = Throw e.
Proof.
  intros Hn E. unfold Game_constructor.
  rewrite !Get_not_nullish by assumption. simpl. rewrite E. reflexivity.
Qed.

(** And so for [last_active], once [created_on] is converted. *)
Lemma Game_constructor_last_active_throws info d e :
  nullish info = false ->
  new_Date (field info "created_on") = Ok d ->
  new_Date (field info "last_active") = Throw e ->
  Game_constructor info = Throw e.
Proof.
  intros Hn E1 E2. unfold Game_constructor.
  rewrite !Get_not_nullish by assumption. simpl. rewrite E1, E2. reflexivity.
Qed.

Lemma Game_constructor_nullish info :
  nullish info = true -> Game_constructor info = Throw TypeError.
Proof.
  intros Hn. unfold Game_constructor.
  rewrite (Get_nullish info "id") by assumption. reflexivity.
Qed.

(** A [created_on] nested one array deeper than the stack holds: the
    constructor throws a RangeError. *)
Lemma Game_constructor_too_deep (props : gmap string value) (v : value) :
  props !! "created_on" = Some (nest (S max_join_depth) v) ->
  Game_constructor (VObject props) = Throw RangeError.
Proof.
  intros E. apply Game_constructor_created_on_throws; [reflexivity|].
  unfold field; simpl. rewrite E. apply new_Date_too_deep.
Qed.

End ConstructorFacts.

(** ** The scenarios of the specification, run *)

Example scenario_1 :
  Game_constructor quiz_night = Ok quiz_night_game /\
  isPlayable quiz_night_game = Ok (true, quiz_night_game).
Proof. split; vm_compute; reflexivity. Qed.

Example scenario_3 :
  Game_constructor trivia = Ok trivia_game /\
  isPlayable trivia_game = Ok (false, trivia_game).
Proof. split; vm_compute; reflexivity. Qed.

Example scenario_4 : Game_constructor no_players = Ok no_players_game.
Proof. vm_compute; reflexivity. Qed.

Example null_payload : Game_constructor VNull = Throw TypeError.
Proof. reflexivity. Qed.

(** A date field that is [null] is not an absent one: [new Date(null)] is
    the epoch. *)
Example null_date :
  Game_constructor (VObject {[ "created_on" := VNull ]}) =
    Ok {| id := VUndefined; name := VUndefined; status := VUndefined;
          nPlayers := VUndefined; createdOn := {| DateValue := Some 0 |};
          lastActive := Invalid_Date; rounds := VUndefined;
          scoreboard := VUndefined |}.
Proof. vm_compute; reflexivity. Qed.

(** ** [isPlayable] *)

Lemma isPlayable_returns (this : Game) :
  isPlayable this =
    Ok (strict_equals_string (status this) (GameStatus_value NEW), this).
Proof. reflexivity. Qed.

Lemma strict_equals_string_true (x : value) (s : string) :
  strict_equals_string x s = true <-> x = VString s.
Proof.
  destruct x; simpl; try (split; congruence).
  rewrite bool_decide_eq_true. split; congruence.
Qed.

Lemma GameStatus_value_inj (s1 s2 : GameStatus) :
  GameStatus_value s1 = GameStatus_value s2 -> s1 = s2.
Proof. destruct s1, s2; simpl; congruence. Qed.

(** C1. On every constructed Game, [isPlayable()] returns [true] if and only
    if the status is [GameStatus.NEW], the string 'new'; it returns [false]
    when the status is ONGOING, FINISHED or ABANDONED. *)
Theorem isPlayable_iff_NEW {host : Host} (info : value) (g : Game) :
  Game_constructor info = Ok g ->
  exists b : bool,
    isPlayable g = Ok (b, g) /\
    (b = true <-> status g = VString (GameStatus_value NEW)) /\
    (forall s, s <> NEW -> status g = VString (GameStatus_value s) -> b = false).
Proof.
  intros _. eexists. split; [apply isPlayable_returns|]. split.
  - apply strict_equals_string_true.
  - intros s Hs E. apply not_true_is_false.
    rewrite strict_equals_string_true, E. intros [= E'].
    apply Hs, GameStatus_value_inj, E'.
Qed.

Lemma isPlayable_iff_NEW_witness :
  Game_constructor (host := utc_host) quiz_night = Ok quiz_night_game /\
  exists b : bool,
    isPlayable quiz_night_game = Ok (b, quiz_night_game) /\
    (b = true <-> status quiz_night_game = VString (GameStatus_value NEW)) /\
    (forall s, s <> NEW ->
       status quiz_night_game = VString (GameStatus_value s) -> b = false).
Proof.
  split; [vm_compute; reflexivity|].
  apply (isPlayable_iff_NEW (host := utc_host) quiz_night quiz_night_game).
  vm_compute; reflexivity.
Defined.

(** C9. [isPlayable()] compares with strict, case-sensitive equality: on
    every Game whose status is anything but the string 'new' (a string in
    another case, a value that is not a string, [undefined]) it returns
    [false]. *)
Theorem isPlayable_strict (g : Game) :
  status g <> VString "new" -> isPlayable g = Ok (false, g).
Proof.
  intros Hs. rewrite isPlayable_returns. do 2 f_equal.
  apply not_true_is_false. rewrite strict_equals_string_true. exact Hs.
Qed.

Lemma isPlayable_strict_witness :
  status shouting_game <> VString "new" /\
  isPlayable shouting_game = Ok (false, shouting_game).
Proof.
  split; [discriminate|]. apply (isPlayable_strict shouting_game). discriminate.
Defined.

Example isPlayable_other_statuses :
  forall x, x ∈ [VString "NEW"; VString "New"; VString "new "; VUndefined; VNull;
                 VBool true; VNumber (integer 1); VArray [VString "new"]] ->
  forall g, status g = x -> strict_equals_string (status g) "new" = false.
Proof.
  intros x Hx g ->. repeat (apply elem_of_cons in Hx as [-> | Hx]; [reflexivity|]).
  inversion Hx.
Qed.

(** C8. A Game is not changed by the one method of the class: [isPlayable()]
    returns its answer and leaves [this], with each of its fields, as it
    found it, and it never throws. *)
Theorem isPlayable_pure (this : Game) :
  exists b : bool, isPlayable this = Ok (b, this).
Proof. eexists. apply isPlayable_returns. Qed.

(** ** The constructor *)

(** C2. The six fields [id], [name], [status], [nPlayers], [rounds] and
    [scoreboard] of a constructed Game are the values read from the
    payload's [id], [name], [status], [n_players], [rounds] and
    [scoreboard]: nothing is changed but the name of [n_players]. *)
Theorem Game_constructor_copies {host : Host} (info : value) (g : Game) :
  Game_constructor info = Ok g ->
  Get info "id" = Ok (id g) /\
  Get info "name" = Ok (name g) /\
  Get info "status" = Ok (status g) /\
  Get info "n_players" = Ok (nPlayers g) /\
  Get info "rounds" = Ok (rounds g) /\
  Get info "scoreboard" = Ok (scoreboard g).
Proof.
  intros E. apply Game_constructor_inv in E as (Hn & _ & _ & ->).
  rewrite !Get_not_nullish by assumption. simpl. auto 10.
Qed.

Lemma Game_constructor_copies_witness :
  Game_constructor (host := utc_host) trivia = Ok trivia_game /\
  Get trivia "id" = Ok (id trivia_game) /\
  Get trivia "name" = Ok (name trivia_game) /\
  Get trivia "status" = Ok (status trivia_game) /\
  Get trivia "n_players" = Ok (nPlayers trivia_game) /\
  Get trivia "rounds" = Ok (rounds trivia_game) /\
  Get trivia "scoreboard" = Ok (scoreboard trivia_game).
Proof.
  split; [vm_compute; reflexivity|].
  apply (Game_constructor_copies (host := utc_host) trivia trivia_game).
  vm_compute; reflexivity.
Defined.

(** C3, as the code has it.  The status of a constructed Game is the
    payload's status, unchecked: it is a member of [GameStatus] exactly when
    the payload's status is one of the strings 'new', 'ongoing', 'finished',
    'abandoned'. *)
Theorem status_is_GameStatus_iff {host : Host} (info : value) (g : Game) :
  Game_constructor info = Ok g ->
  Get info "status" = Ok (status g) /\
  (is_GameStatus (status g) <->
   exists s : GameStatus, Get info "status" = Ok (VString (GameStatus_value s))).
Proof.
  intros E. apply Game_constructor_copies in E as (_ & _ & E & _).
  split; [exact E|]. rewrite E. unfold is_GameStatus.
  split; intros [s Hs]; exists s; congruence.
Qed.

Lemma status_is_GameStatus_iff_witness :
  Game_constructor (host := utc_host) trivia = Ok trivia_game /\
  Get trivia "status" = Ok (status trivia_game) /\
  (is_GameStatus (status trivia_game) <->
   exists s : GameStatus, Get trivia "status" = Ok (VString (GameStatus_value s))).
Proof.
  split; [vm_compute; reflexivity|].
  apply (status_is_GameStatus_iff (host := utc_host) trivia trivia_game).
  vm_compute; reflexivity.
Defined.

(** C3 as stated fails: the payload [{status: 'paused'}] is constructed
    into a Game whose status is no member of [GameStatus]. *)
Lemma status_outside_GameStatus :
  Game_constructor (host := utc_host) paused = Ok paused_game /\
  ~ is_GameStatus (status paused_game).
Proof.
  split; [vm_compute; reflexivity|].
  intros [[] E]; discriminate E.
Qed.

(** C4. When [created_on] and [last_active] are strings [Date.parse]
    accepts, construction completes and the two timestamps hold the time
    values [Date.parse] gives for them. *)
Theorem dates_are_parsed {host : Host} (info : value) (s1 s2 : string) (t1 t2 : Z) :
  Get info "created_on" = Ok (VString s1) ->
  Get info "last_active" = Ok (VString s2) ->
  Date_parse s1 = Some t1 ->
  Date_parse s2 = Some t2 ->
  exists g : Game,
    Game_constructor info = Ok g /\
    DateValue (createdOn g) = Date_parse s1 /\
    DateValue (lastActive g) = Date_parse s2 /\
    createdOn g <> Invalid_Date /\ lastActive g <> Invalid_Date.
Proof.
  intros [Hn E1]%Get_Ok [_ E2]%Get_Ok P1 P2.
  eexists. split.
  - apply Game_constructor_Ok; [assumption| |];
      rewrite <- ?E1, <- ?E2; apply new_Date_string.
  - simpl. rewrite P1, P2. repeat split; discriminate.
Qed.

Lemma dates_are_parsed_witness :
  Get quiz_night "created_on" = Ok (VString "2024-01-01T00:00:00Z") /\
  Get quiz_night "last_active" = Ok (VString "2024-01-01T00:00:00Z") /\
  Date_parse (Host := utc_host) "2024-01-01T00:00:00Z" = Some 1704067200000 /\
  exists g : Game,
    Game_constructor (host := utc_host) quiz_night = Ok g /\
    DateValue (createdOn g) = Date_parse "2024-01-01T00:00:00Z" /\
    DateValue (lastActive g) = Date_parse "2024-01-01T00:00:00Z" /\
    createdOn g <> Invalid_Date /\ lastActive g <> Invalid_Date.
Proof.
  repeat (split; [vm_compute; reflexivity|]).
  apply (dates_are_parsed (host := utc_host) quiz_night
           "2024-01-01T00:00:00Z" "2024-01-01T00:00:00Z"
           1704067200000 1704067200000);
    vm_compute; reflexivity.
Defined.

(** C7. Two constructions from one payload give Games whose eight fields
    are equal. *)
Theorem Game_constructor_deterministic {host : Host} (info : value) (g1 g2 : Game) :
  Game_constructor info = Ok g1 ->
  Game_constructor info = Ok g2 ->
  id g1 = id g2 /\ name g1 = name g2 /\ status g1 = status g2 /\
  nPlayers g1 = nPlayers g2 /\
  DateValue (createdOn g1) = DateValue (createdOn g2) /\
  DateValue (lastActive g1) = DateValue (lastActive g2) /\
  rounds g1 = rounds g2 /\ scoreboard g1 = scoreboard g2.
Proof.
  intros E1 E2. rewrite E1 in E2. injection E2 as <-. auto 10.
Qed.

Lemma Game_constructor_deterministic_witness :
  Game_constructor (host := utc_host) quiz_night = Ok quiz_night_game /\
  id quiz_night_game = id quiz_night_game /\
  name quiz_night_game = name quiz_night_game /\
  status quiz_night_game = status quiz_night_game /\
  nPlayers quiz_night_game = nPlayers quiz_night_game /\
  DateValue (createdOn quiz_night_game) = DateValue (createdOn quiz_night_game) /\
  DateValue (lastActive quiz_night_game) = DateValue (lastActive quiz_night_game) /\
  rounds quiz_night_game = rounds quiz_night_game /\
  scoreboard quiz_night_game = scoreboard quiz_night_game.
Proof.
  split; [vm_compute; reflexivity|].
  apply (Game_constructor_deterministic (host := utc_host)
           quiz_night quiz_night_game quiz_night_game);
    vm_compute; reflexivity.
Defined.









Example empty_object : Game_constructor (VObject ∅) = Ok blank_game.
Proof. vm_compute; reflexivity. Qed.


(** ** Beyond the claims: the contract of the constructor *)

Section Contract.
Context {host : Host}.

Lemma field_own_property info p v :
  own_property info p = Some v -> field info p = v.
Proof. unfold field. intros ->. reflexivity. Qed.

Lemma createdOn_new_Date info g :
  Game_constructor info = Ok g ->
  new_Date (field info "created_on") = Ok (createdOn g).
Proof. intros E. apply Game_constructor_inv in E. tauto. Qed.

Lemma lastActive_new_Date info g :
  Game_constructor info = Ok g ->
  new_Date (field info "last_active") = Ok (lastActive g).
Proof. intros E. apply Game_constructor_inv in E. tauto. Qed.

(** X1.  When neither date field is an array, the constructor throws
    exactly when the payload is [undefined] or [null] or a date field is an
    object with an own property "toString"; what it throws is then a
    TypeError, never a RangeError. *)
Theorem Game_constructor_throws info :
  is_array (field info "created_on") = false ->
  is_array (field info "last_active") = false ->
  (Game_constructor info = Throw TypeError <->
   nullish info = true \/
   shadows_toString (field info "created_on") = true \/
   shadows_toString (field info "last_active") = true) /\
  Game_constructor info <> Throw RangeError.
Proof.
  intros Ha1 Ha2.
  destruct (nullish info) eqn:Hn.
  { rewrite Game_constructor_nullish by assumption.
    split; [split; auto|discriminate]. }
  destruct (shadows_toString (field info "created_on")) eqn:Hs1.
  { rewrite (Game_constructor_created_on_throws info TypeError)
      by auto using new_Date_shadows_toString.
    split; [split; auto|discriminate]. }
  destruct (shadows_toString (field info "last_active")) eqn:Hs2.
  { destruct (new_Date_converts_directly (field info "created_on")) as [d1 E1].
    { unfold converts_directly. rewrite Ha1, Hs1. reflexivity. }
    rewrite (Game_constructor_last_active_throws info d1 TypeError)
      by auto using new_Date_shadows_toString.
    split; [split; auto|discriminate]. }
  destruct (Game_constructor_completes info) as (d1 & d2 & ->);
    [assumption
    |unfold converts_directly; rewrite Ha1, Hs1; reflexivity
    |unfold converts_directly; rewrite Ha2, Hs2; reflexivity|].
  split; [|discriminate].
  split; [discriminate|]. intros [? | [? | ?]]; discriminate.
Qed.

(** Two payloads that agree on the eight fields are constructed alike. *)
Lemma Game_constructor_agree info info' :
  nullish info = nullish info' ->
  (forall p, is_payload_field p = true -> field info p = field info' p) ->
  Game_constructor info = Game_constructor info'.
Proof.
  intros Hn Hf. unfold Game_constructor.
  destruct (nullish info) eqn:E; symmetry in Hn.
  - rewrite (Get_nullish info "id"), (Get_nullish info' "id") by assumption.
    reflexivity.
  - rewrite !Get_not_nullish by assumption.
    rewrite !Hf by reflexivity. reflexivity.
Qed.

(** X2.  The constructor reads eight properties and no other: a property of
    another name, added to the payload or changed in it, changes nothing
    of the outcome. *)
Theorem Game_constructor_ignores_other_properties
    (props : gmap string value) (k : string) (v : value) :
  is_payload_field k = false ->
  Game_constructor (VObject (<[k := v]> props)) = Game_constructor (VObject props).
Proof.
  intros Hk. apply Game_constructor_agree; [reflexivity|].
  intros p Hp. unfold field; simpl. rewrite lookup_insert_ne; [reflexivity|].
  intros ->. congruence.
Qed.

(** X3.  The constructor followed by [isPlayable()]: the Game is playable
    exactly when the payload's status is the string 'new'. *)
Theorem playable_iff_payload_status_new (info : value) (g : Game) :
  Game_constructor info = Ok g ->
  isPlayable g = Ok (true, g) <-> Get info "status" = Ok (VString "new").
Proof.
  intros E. apply Game_constructor_inv in E as (Hn & _ & _ & ->).
  rewrite isPlayable_returns, Get_not_nullish by assumption. simpl.
  split.
  - intros [= Hs]. apply strict_equals_string_true in Hs. congruence.
  - intros [= Hs]. rewrite Hs. reflexivity.
Qed.

(** What [TimeClip] lets through is a time value. *)
Lemma TimeClip_range (x : number) (t : Z) :
  TimeClip x = Some t -> - time_limit <= t <= time_limit.
Proof.
  destruct x as [sg | sg | | sg m e]; simpl; try discriminate.
  - intros [= <-]. unfold time_limit. lia.
  - unfold magnitude_exceeds, truncate.
    assert (0 < time_limit) as HL by (unfold time_limit; lia).
    destruct (decide (0 <= e)) as [He|He].
    + case_bool_decide as Hm; [discriminate|].
      intros [= <-]. destruct sg; lia.
    + case_bool_decide as Hm; [discriminate|].
      assert (0 < 2 ^ (- e)) as Hp by (apply Z.pow_pos_nonneg; lia).
      assert (0 <= Z.pos m / 2 ^ (- e)) by (apply Z.div_pos; lia).
      assert (Z.pos m / 2 ^ (- e) <= time_limit)
        by (apply Z.div_le_upper_bound; lia).
      intros [= <-]. destruct sg; lia.
Qed.

(** X4.  The two timestamps of a constructed Game are NaN or time values, of
    magnitude at most 8.64e15 ms, whatever the date fields held. *)
Theorem constructed_dates_in_range (info : value) (g : Game) (t : Z) :
  Game_constructor info = Ok g ->
  DateValue (createdOn g) = Some t \/ DateValue (lastActive g) = Some t ->
  - time_limit <= t <= time_limit.
Proof.
  intros E Ht.
  pose proof (createdOn_new_Date _ _ E) as E1.
  pose proof (lastActive_new_Date _ _ E) as E2.
  unfold new_Date in E1, E2.
  destruct (ToPrimitive (field info "created_on")); [|discriminate].
  destruct (ToPrimitive (field info "last_active")); [|discriminate].
  simpl in E1, E2. injection E1 as E1. injection E2 as E2.
  destruct Ht as [Ht | Ht]; [rewrite <- E1 in Ht | rewrite <- E2 in Ht];
    simpl in Ht; eapply TimeClip_range, Ht.
Qed.

(** X5.  A date field that is [null] or [false] gives the epoch, and [true]
    one millisecond after it: none gives the invalid date. *)
Theorem null_and_boolean_dates (info : value) (g : Game) (p : string) (d : Date) :
  Game_constructor info = Ok g ->
  (p = "created_on" /\ d = createdOn g) \/ (p = "last_active" /\ d = lastActive g) ->
  (own_property info p = Some VNull -> DateValue d = Some 0) /\
  (own_property info p = Some (VBool false) -> DateValue d = Some 0) /\
  (own_property info p = Some (VBool true) -> DateValue d = Some 1).
Proof.
  intros E Hp.
  assert (new_Date (field info p) = Ok d) as Hd.
  { destruct Hp as [[-> ->] | [-> ->]];
      [apply createdOn_new_Date | apply lastActive_new_Date]; exact E. }
  repeat split; intros Ho; rewrite (field_own_property _ _ _ Ho) in Hd;
    injection Hd as <-; reflexivity.
Qed.

(** X6.  A date field that is a Number holding an integer is taken as
    milliseconds since the epoch when its magnitude is at most 8.64e15, and
    gives the invalid date beyond.  (Every integer within the bound is
    below 2^53 in magnitude, hence a double.) *)
Theorem integer_dates (info : value) (g : Game) (p : string) (d : Date) (t : Z) :
  Game_constructor info = Ok g ->
  (p = "created_on" /\ d = createdOn g) \/ (p = "last_active" /\ d = lastActive g) ->
  own_property info p = Some (VNumber (integer t)) ->
  DateValue d = if decide (- time_limit <= t <= time_limit) then Some t else None.
Proof.
  intros E Hp Ho.
  assert (new_Date (field info p) = Ok d) as Hd.
  { destruct Hp as [[-> ->] | [-> ->]];
      [apply createdOn_new_Date | apply lastActive_new_Date]; exact E. }
  rewrite (field_own_property _ _ _ Ho) in Hd. injection Hd as <-. simpl.
  case_decide as Ht; [apply TimeClip_time_value, Ht|].
  unfold integer, time_limit in *.
  destruct t as [|q|q]; simpl; [lia| |];
    unfold magnitude_exceeds, time_limit; simpl;
    rewrite bool_decide_eq_true_2 by lia; reflexivity.
Qed.

(** X7.  A date field that is a string holds what [Date.parse] answers for it,
    NaN included, whatever the other date field is. *)
Theorem string_dates (info : value) (g : Game) (p : string) (d : Date) (s : string) :
  Game_constructor info = Ok g ->
  (p = "created_on" /\ d = createdOn g) \/ (p = "last_active" /\ d = lastActive g) ->
  own_property info p = Some (VString s) ->
  DateValue d = Date_parse s.
Proof.
  intros E Hp Ho.
  assert (new_Date (field info p) = Ok d) as Hd.
  { destruct Hp as [[-> ->] | [-> ->]];
      [apply createdOn_new_Date | apply lastActive_new_Date]; exact E. }
  rewrite (field_own_property _ _ _ Ho), new_Date_string in Hd.
  injection Hd as <-. reflexivity.
Qed.




(** X9.  When construction completes and a date field is an object, the object
    has no property "toString" and the field is parsed as the string
    "[object Object]", whatever else the object holds. *)
Theorem object_dates (info : value) (g : Game) (p : string) (d : Date)
    (props : gmap string value) :
  Game_constructor info = Ok g ->
  (p = "created_on" /\ d = createdOn g) \/ (p = "last_active" /\ d = lastActive g) ->
  own_property info p = Some (VObject props) ->
  props !! "toString" = None /\ DateValue d = Date_parse "[object Object]".
Proof.
  intros E Hp Ho.
  assert (new_Date (field info p) = Ok d) as Hd.
  { destruct Hp as [[-> ->] | [-> ->]];
      [apply createdOn_new_Date | apply lastActive_new_Date]; exact E. }
  rewrite (field_own_property _ _ _ Ho) in Hd.
  pose proof (new_Date_string "[object Object]") as Hs.
  unfold new_Date in Hd, Hs.
  change (ToPrimitive (VString ?x)) with (Ok (PString x)) in Hs.
  change (ToPrimitive (VObject props))
    with (s ← OrdinaryToPrimitive props hint_number; Ok (PString s)) in Hd.
  rewrite OrdinaryToPrimitive_spec in Hd.
  destruct (props !! "toString"); [discriminate|].
  split; [reflexivity|].
  change (Ok "[object Object]" ≫= (fun s => Ok (PString s)))
    with (Ok (PString "[object Object]")) in Hd.
  rewrite Hs in Hd. injection Hd as <-. reflexivity.
Qed.

(** X10.  A payload that is neither [undefined] nor [null] and has none of
    the eight properties (a boolean, a number, a string, an array, an
    object with other properties only) is constructed without error, with
    every field [undefined] and both dates invalid. *)
Theorem Game_constructor_without_properties (info : value) :
  nullish info = false ->
  has_no_payload_field info = true ->
  Game_constructor info = Ok blank_game.
Proof.
  intros Hn Ho. unfold has_no_payload_field, payload_fields in Ho.
  cbn [forallb] in Ho.
  destruct (own_property info "id") eqn:E1; [discriminate|].
  destruct (own_property info "name") eqn:E2; [discriminate|].
  destruct (own_property info "status") eqn:E3; [discriminate|].
  destruct (own_property info "n_players") eqn:E4; [discriminate|].
  destruct (own_property info "created_on") eqn:E5; [discriminate|].
  destruct (own_property info "last_active") eqn:E6; [discriminate|].
  destruct (own_property info "rounds") eqn:E7; [discriminate|].
  destruct (own_property info "scoreboard") eqn:E8; [discriminate|].
  rewrite (Game_constructor_Ok info Invalid_Date Invalid_Date Hn);
    unfold Game_of, field; rewrite ?E1, ?E2, ?E3, ?E4, ?E5, ?E6, ?E7, ?E8;
    reflexivity.
Qed.

End Contract.

(** ** The contract, run on the example payloads *)

Lemma Game_constructor_ignores_other_properties_witness :
  is_payload_field "extra" = false /\
  Game_constructor (host := utc_host) (VObject (<["extra" := VBool true]> new_props)) =
    Game_constructor (VObject new_props).
Proof.
  split; [vm_compute; reflexivity|].
  apply (Game_constructor_ignores_other_properties (host := utc_host)
           new_props "extra" (VBool true)).
  vm_compute; reflexivity.
Defined.

Lemma playable_iff_payload_status_new_witness :
  Game_constructor (host := utc_host) quiz_night = Ok quiz_night_game /\
  (isPlayable quiz_night_game = Ok (true, quiz_night_game) <->
   Get quiz_night "status" = Ok (VString "new")).
Proof.
  split; [vm_compute; reflexivity|].
  apply (playable_iff_payload_status_new (host := utc_host)
           quiz_night quiz_night_game).
  vm_compute; reflexivity.
Defined.

Lemma constructed_dates_in_range_witness :
  Game_constructor (host := utc_host) quiz_night = Ok quiz_night_game /\
  DateValue (createdOn quiz_night_game) = Some 1704067200000 /\
  - time_limit <= 1704067200000 <= time_limit.
Proof.
  split; [vm_compute; reflexivity|]. split; [reflexivity|].
  apply (constructed_dates_in_range (host := utc_host)
           quiz_night quiz_night_game 1704067200000);
    [vm_compute; reflexivity | left; reflexivity].
Defined.

Lemma null_and_boolean_dates_witness :
  Game_constructor (host := utc_host) null_and_number_dates = Ok null_and_number_game /\
  own_property null_and_number_dates "created_on" = Some VNull /\
  DateValue (createdOn null_and_number_game) = Some 0.
Proof.
  split; [vm_compute; reflexivity|]. split; [vm_compute; reflexivity|].
  refine (proj1 (null_and_boolean_dates (host := utc_host) null_and_number_dates
                   null_and_number_game "created_on"
                   (createdOn null_and_number_game) _ _) _);
    [vm_compute; reflexivity | left; split; reflexivity | vm_compute; reflexivity].
Defined.

Lemma integer_dates_witness :
  Game_constructor (host := utc_host) null_and_number_dates = Ok null_and_number_game /\
  own_property null_and_number_dates "last_active" =
    Some (VNumber (integer 1704067200000)) /\
  DateValue (lastActive null_and_number_game) =
    if decide (- time_limit <= 1704067200000 <= time_limit)
    then Some 1704067200000 else None.
Proof.
  split; [vm_compute; reflexivity|]. split; [vm_compute; reflexivity|].
  apply (integer_dates (host := utc_host) null_and_number_dates
           null_and_number_game "last_active" (lastActive null_and_number_game));
    [vm_compute; reflexivity | right; split; reflexivity | vm_compute; reflexivity].
Defined.

Lemma string_dates_witness :
  Game_constructor (host := utc_host) trivia = Ok trivia_game /\
  own_property trivia "created_on" = Some (VString "bad-date") /\
  DateValue (createdOn trivia_game) = Date_parse "bad-date".
Proof.
  split; [vm_compute; reflexivity|]. split; [vm_compute; reflexivity|].
  apply (string_dates (host := utc_host) trivia trivia_game
           "created_on" (createdOn trivia_game) "bad-date");
    [vm_compute; reflexivity | left; split; reflexivity | vm_compute; reflexivity].
Defined.


Lemma object_dates_witness :
  Game_constructor (host := utc_host) object_and_array_dates = Ok object_and_array_game /\
  own_property object_and_array_dates "created_on" = Some (VObject ∅) /\
  (∅ : gmap string value) !! "toString" = None /\
  DateValue (createdOn object_and_array_game) = Date_parse "[object Object]".
Proof.
  split; [vm_compute; reflexivity|]. split; [vm_compute; reflexivity|].
  apply (object_dates (host := utc_host) object_and_array_dates
           object_and_array_game "created_on" (createdOn object_and_array_game) ∅);
    [vm_compute; reflexivity | left; split; reflexivity | vm_compute; reflexivity].
Defined.

Lemma Game_constructor_without_properties_witness :
  nullish stranger = false /\
  has_no_payload_field stranger = true /\
  Game_constructor (host := utc_host) stranger = Ok blank_game.
Proof.
  split; [reflexivity|]. split; [vm_compute; reflexivity|].
  apply (Game_constructor_without_properties (host := utc_host) stranger);
    vm_compute; reflexivity.
Defined.

Lemma Game_constructor_throws_witness :
  is_array (field shadowed_created_on "created_on") = false /\
  is_array (field shadowed_created_on "last_active") = false /\
  (Game_constructor (host := utc_host) shadowed_created_on = Throw TypeError <->
   nullish shadowed_created_on = true \/
   shadows_toString (field shadowed_created_on "created_on") = true \/
   shadows_toString (field shadowed_created_on "last_active") = true) /\
  Game_constructor (host := utc_host) shadowed_created_on <> Throw RangeError.
Proof.
  split; [vm_compute; reflexivity|]. split; [vm_compute; reflexivity|].
  apply (Game_constructor_throws (host := utc_host) shadowed_created_on);
    vm_compute; reflexivity.
Defined.
